(** * remove_bg.py: a shallow embedding and its specification

    The script [scripts/remove_bg.py] reads an image file, hands its bytes to
    the [rembg] library and writes what the library returns to a second
    file.  Everything the script does on its own is argument checking, file
    input and output, and turning an exception into an exit code.

    The embedding below follows the script line by line.  A run is a
    function on a [World] (file contents by path, the two output streams,
    and a log of the calls made to the operating system and to the
    library).  The parts that the script does not control, namely which
    file a path leads to, which [open] calls the operating system refuses,
    which writes fail half way, and what [rembg.remove] answers, are
    collected in a [Host]. *)

From Stdlib Require Import ZArith Ascii String DecimalString.
From stdpp Require Import base option list gmap strings fin_maps.

Local Open Scope Z_scope.
Local Open Scope string_scope.
Local Open Scope list_scope.

(** ** Python values used by the script *)

(** [bytes] objects. *)
Abbreviation bytes := (list Byte.byte).

(** A [str] is a sequence of code points; the embedding keeps the code
    points below 256, one per [ascii]. *)

(** *** [repr] of a [str], as used when an [OSError] shows its file name *)

Definition squote : ascii := ascii_of_nat 39.
Definition dquote : ascii := ascii_of_nat 34.
Definition backslash : ascii := ascii_of_nat 92.

Fixpoint contains_char (c : ascii) (s : string) : bool :=
  match s with
  | EmptyString => false
  | String d s' => if Ascii.eqb c d then true else contains_char c s'
  end.

(** [repr] takes single quotes unless the text has a single quote and no
    double quote. *)
Definition repr_quote (s : string) : ascii :=
  if contains_char squote s && negb (contains_char dquote s)
  then dquote else squote.

Definition hex_digit (n : nat) : ascii :=
  match String.get n "0123456789abcdef" with
  | Some c => c
  | None => "0"%char
  end.

Definition hex_escape (n : nat) : string :=
  String backslash
    (String "x"%char
       (String (hex_digit (n / 16)) (String (hex_digit (n mod 16)) EmptyString))).

(** Code points below 256 that [str.isprintable] rejects: the C0 and C1
    controls, DEL, the no-break space and the soft hyphen. *)
Definition unprintable (n : nat) : bool :=
  (n <? 32)%nat || ((127 <=? n)%nat && (n <=? 160)%nat) || (n =? 173)%nat.

Definition repr_char (quote c : ascii) : string :=
  let n := nat_of_ascii c in
  if Ascii.eqb c quote || Ascii.eqb c backslash then
    String backslash (String c EmptyString)
  else if (n =? 9)%nat then String backslash "t"
  else if (n =? 10)%nat then String backslash "n"
  else if (n =? 13)%nat then String backslash "r"
  else if unprintable n then hex_escape n
  else String c EmptyString.

Fixpoint repr_body (quote : ascii) (s : string) : string :=
  match s with
  | EmptyString => EmptyString
  | String c s' => repr_char quote c +:+ repr_body quote s'
  end.

Definition repr (s : string) : string :=
  let q := repr_quote s in
  String q (repr_body q s +:+ String q EmptyString).

(** *** Exceptions

    [Exn] stands for the instances of Python's [Exception], the class named
    by the handler on line 27.  An [OSError] carries what the operating
    system reported; every other exception is kept as its class name and
    the text [str(e)] gives for it. *)

Inductive Exn : Type :=
  | OSError (errno : Z) (strerror : string) (filename : option string)
  | OtherError (cls : string) (message : string).

Definition decimal (n : Z) : string := NilZero.string_of_int (Z.to_int n).

(** [str(e)]: an [OSError] prints as [[Errno n] text: 'file'] or, without a
    file name, as [[Errno n] text]. *)
Definition str (e : Exn) : string :=
  match e with
  | OSError errno strerror filename =>
      let head := "[Errno " +:+ decimal errno +:+ "] " +:+ strerror in
      match filename with
      | Some f => head +:+ ": " +:+ repr f
      | None => head
      end
  | OtherError _ message => message
  end.

(** What [open] raises for a path that names nothing. *)
Definition FileNotFoundError (path : string) : Exn :=
  OSError 2 "No such file or directory" (Some path).

(** ** The world *)

Inductive Mode : Type := rb | wb.

(** Calls that leave the script: [open] and [rembg.remove]. *)
Inductive Call : Type :=
  | call_open (path : string) (mode : Mode)
  | call_remove (data : bytes).

Record World : Type := mkWorld {
  files : gmap string bytes;   (* regular files with their content, by the
                                  name the host resolves their paths to *)
  stdout : list string;        (* one entry per [print] to standard output *)
  stderr : list string;        (* one entry per [print] to standard error *)
  calls : list Call            (* calls made so far, oldest first *)
}.

(** What the script cannot decide.  Several paths may lead to one file
    ([photo.png] and [./photo.png], links, names that differ in case only):
    [resolve] gives, for a path as written, the name under which [files]
    keeps the file it leads to, so that two paths lead to the same file
    exactly when they resolve to the same name. *)
Record Host : Type := mkHost {
  (* the file a path leads to *)
  resolve : string → string;
  (* existing files whose [open(p, 'rb')] raises (no permission, ...) *)
  open_rb_fault : gmap string Exn;
  (* paths whose [open(p, 'wb')] raises (missing directory, no permission) *)
  open_wb_fault : gmap string Exn;
  (* paths at which a write fails after so many bytes reached the file *)
  write_fault : gmap string (nat * Exn);
  (* [rembg.remove] on [bytes]: the bytes of the new image, or an exception *)
  remove : bytes → Exn + bytes
}.

Definition set_files (f : gmap string bytes) (w : World) : World :=
  mkWorld f (stdout w) (stderr w) (calls w).

Definition log_call (c : Call) (w : World) : World :=
  mkWorld (files w) (stdout w) (stderr w) (calls w ++ [c]).

(** ** Computations that may raise

    A computation runs on a world and leaves a world, with a value or with
    an exception; what was done before an exception is raised stays done. *)

Definition M (A : Type) : Type := World → (Exn + A) * World.

#[global] Instance M_ret : MRet M := λ A (x : A) w, (inr x, w).

#[global] Instance M_bind : MBind M := λ A B (f : A → M B) (c : M A) w,
  match c w with
  | (inr x, w') => f x w'
  | (inl e, w') => (inl e, w')
  end.

Definition raise {A : Type} (e : Exn) : M A := λ w, (inl e, w).

(** [try: body / except Exception as e: handler e]. *)
Definition try_except {A : Type} (body : M A) (handler : Exn → M A) : M A :=
  λ w, match body w with
       | (inr x, w') => (inr x, w')
       | (inl e, w') => handler e w'
       end.

(** [print(s)] and [print(s, file=sys.stderr)]. *)
Inductive Stream : Type := to_stdout | to_stderr.

Definition print (s : string) (stream : Stream) : M unit := λ w,
  match stream with
  | to_stdout => (inr (), mkWorld (files w) (stdout w ++ [s]) (stderr w) (calls w))
  | to_stderr => (inr (), mkWorld (files w) (stdout w) (stderr w ++ [s]) (calls w))
  end.

(** ** Files *)

(** A file object: opened for reading it holds what the file contained,
    opened for writing it names the file that receives the data. *)
Inductive FileObj : Type :=
  | Reader (content : bytes)
  | Writer (path : string).

Section Script.

Context (host : Host).

(** [open(path, mode)], on the file the path leads to.  Mode ['rb'] needs
    an existing file that the host lets the script read.  Mode ['wb']
    creates the file, or cuts an existing one down to nothing, unless the
    host refuses.  Exceptions and the log keep the path as it was written. *)
Definition open_ (path : string) (mode : Mode) : M FileObj := λ w,
  let w := log_call (call_open path mode) w in
  match mode with
  | rb =>
      match files w !! resolve host path with
      | None => (inl (FileNotFoundError path), w)
      | Some content =>
          match open_rb_fault host !! path with
          | Some e => (inl e, w)
          | None => (inr (Reader content), w)
          end
      end
  | wb =>
      match open_wb_fault host !! path with
      | Some e => (inl e, w)
      | None =>
          (inr (Writer path), set_files (<[resolve host path := []]> (files w)) w)
      end
  end.

Definition UnsupportedOperation (what : string) : Exn :=
  OtherError "UnsupportedOperation" what.

(** [f.read()]: the whole content. *)
Definition file_read (f : FileObj) : M bytes :=
  match f with
  | Reader content => mret content
  | Writer _ => raise (UnsupportedOperation "read")
  end.

(** [f.write(data)]: the data goes behind what the file holds; when the
    host makes the write fail, only the first bytes arrive. *)
Definition file_write (f : FileObj) (data : bytes) : M unit :=
  match f with
  | Reader _ => raise (UnsupportedOperation "write")
  | Writer path => λ w,
      let file := resolve host path in
      let old : bytes := default [] (files w !! file) in
      match write_fault host !! path with
      | Some (k, e) => (inl e, set_files (<[file := old ++ take k data]> (files w)) w)
      | None => (inr (), set_files (<[file := old ++ data]> (files w)) w)
      end
  end.

(** [with open(path, mode) as f: body f].  Closing the file changes
    nothing that the world records. *)
Definition with_open {A : Type} (path : string) (mode : Mode)
    (body : FileObj → M A) : M A :=
  f ← open_ path mode; body f.

(** The call [remove(input_data)] into [rembg]. *)
Definition rembg_remove (data : bytes) : M bytes := λ w,
  (remove host data, log_call (call_remove data) w).

(** ** The script *)

(** Lines 14 and 15: the input file, read whole. *)
Definition read_input (input_path : string) : M bytes :=
  with_open input_path rb (λ input_file, file_read input_file).

(** Lines 21 and 22: the output file, written in one go. *)
Definition write_output (output_path : string) (output_data : bytes) : M unit :=
  with_open output_path wb (λ output_file, file_write output_file output_data).

(** Lines 10 to 29. *)
Definition remove_background (input_path output_path : string) : M Z :=
  try_except
    (input_data ← read_input input_path;
     output_data ← rembg_remove input_data;
     write_output output_path output_data;;
     print ("SUCCESS: Background removed and saved to " +:+ output_path) to_stdout;;
     mret 0)
    (λ e,
     print ("ERROR: " +:+ str e) to_stderr;;
     mret 1).

Definition usage : string :=
  "Usage: python remove_bg.py <input_path> <output_path>".

(** [argv[i]]. *)
Definition index (argv : list string) (i : nat) : M string :=
  match argv !! i with
  | Some a => mret a
  | None => raise (OtherError "IndexError" "list index out of range")
  end.

(** Lines 31 to 40.  The value is the argument given to [sys.exit]. *)
Definition main (argv : list string) : M Z :=
  if negb (length argv =? 3)%nat then
    print usage to_stdout;;
    mret 1
  else
    input_path ← index argv 1;
    output_path ← index argv 2;
    exit_code ← remove_background input_path output_path;
    mret exit_code.

(** How the process ends. *)
Inductive Exit : Type :=
  | exited (code : Z)
  | uncaught (e : Exn).

Definition run (argv : list string) (w : World) : Exit * World :=
  match main argv w with
  | (inr code, w') => (exited code, w')
  | (inl e, w') => (uncaught e, w')
  end.

End Script.

(** ** Vocabulary of the specification *)

(** The computation [c], started in [w], ends with the exception [e]. *)
Definition raises {A : Type} (c : M A) (w : World) (e : Exn) : Prop :=
  (c w).1 = inl e.

(** The input path leads to a file and the host lets the script open it. *)
Definition readable (host : Host) (w : World) (path : string) : Prop :=
  is_Some (files w !! resolve host path) ∧ open_rb_fault host !! path = None.

(** The host lets the script open the output path and write all of it. *)
Definition writable (host : Host) (path : string) : Prop :=
  open_wb_fault host !! path = None ∧ write_fault host !! path = None.

(** The three steps of the [try] block all return. *)
Definition sequence_completes (host : Host) (input_path output_path : string)
    (w : World) : Prop :=
  ∃ input_data w1 output_data w2 w3,
    read_input host input_path w = (inr input_data, w1) ∧
    rembg_remove host input_data w1 = (inr output_data, w2) ∧
    write_output host output_path output_data w2 = (inr (), w3).

(** The step of the [try] block at which [e] is raised. *)
Definition fails_reading (host : Host) (input_path : string) (w : World)
    (e : Exn) : Prop :=
  raises (read_input host input_path) w e.

Definition fails_removing (host : Host) (input_path : string) (w : World)
    (e : Exn) : Prop :=
  ∃ input_data w1,
    read_input host input_path w = (inr input_data, w1) ∧
    raises (rembg_remove host input_data) w1 e.

Definition fails_writing (host : Host) (input_path output_path : string)
    (w : World) (e : Exn) : Prop :=
  ∃ input_data w1 output_data w2,
    read_input host input_path w = (inr input_data, w1) ∧
    rembg_remove host input_data w1 = (inr output_data, w2) ∧
    raises (write_output host output_path output_data) w2 e.

(** The lines the script prints. *)
Definition success_line (output_path : string) : string :=
  "SUCCESS: Background removed and saved to " +:+ output_path.

Definition error_line (e : Exn) : string := "ERROR: " +:+ str e.

(** The world after the handler has printed its line for [e], and after
    the success line for [output_path]. *)
Definition report (e : Exn) (w : World) : World :=
  mkWorld (files w) (stdout w) (stderr w ++ [error_line e]) (calls w).

Definition announce (output_path : string) (w : World) : World :=
  mkWorld (files w) (stdout w ++ [success_line output_path]) (stderr w) (calls w).

(** [needle] occurs in [text]. *)
Definition mentions (text needle : string) : Prop :=
  ∃ before after, text = before +:+ needle +:+ after.

(** A character that [repr] copies as it is when the quotes are single. *)
Definition plain_char (c : ascii) : bool :=
  let n := nat_of_ascii c in
  (32 <=? n)%nat && (n <? 127)%nat && negb (Ascii.eqb c squote)
  && negb (Ascii.eqb c backslash).

Fixpoint plain (s : string) : bool :=
  match s with
  | EmptyString => true
  | String c s' => plain_char c && plain s'
  end.

(** ** A small host and world to run the script on *)

Module Sample.

(** A stand-in for the library: it refuses data that does not start with
    the first byte of a PNG file, answers nothing for a lone first byte,
    and otherwise gives the data back to front. *)
Definition cut_out (data : bytes) : Exn + bytes :=
  match data with
  | Byte.x89 :: rest => inr (rev rest)
  | _ => inl (OtherError "UnidentifiedImageError" "cannot identify image file")
  end.

(** All paths are taken from one directory, where a leading [./] leads
    nowhere else. *)
Fixpoint in_directory (path : string) : string :=
  match path with
  | String "."%char (String "/"%char rest) => in_directory rest
  | _ => path
  end.

Definition host : Host := mkHost in_directory ∅ ∅ ∅ cut_out.

(** The same library on a host where [locked.png] may not be written and
    the disk is full after two bytes of [full.png]. *)
Definition strict_host : Host :=
  mkHost in_directory ∅
    {[ "locked.png" := OSError 13 "Permission denied" (Some "locked.png") ]}
    {[ "full.png" := (2%nat, OSError 28 "No space left on device" None) ]}
    cut_out.

Definition photo : bytes := [Byte.x89; Byte.x50; Byte.x4e; Byte.x47].

Definition world : World :=
  mkWorld {[ "photo.png" := photo;
             "notes.txt" := [Byte.x68; Byte.x69];
             "blank.png" := [Byte.x89] ]}
          [] [] [].

End Sample.

(** * Properties *)

(** ** The steps of the script, unfolded *)

Section Steps.
Context (host : Host).

Lemma read_input_unfold i w :
  read_input host i w =
    (match files w !! resolve host i with
     | None => inl (FileNotFoundError i)
     | Some content =>
         match open_rb_fault host !! i with
         | Some e => inl e
         | None => inr content
         end
     end, log_call (call_open i rb) w).
Proof.
  unfold read_input, with_open, open_, mbind, M_bind. simpl.
  destruct (files w !! resolve host i); [destruct (open_rb_fault host !! i)|];
    reflexivity.
Qed.

Lemma write_output_unfold o d w :
  write_output host o d w =
    match open_wb_fault host !! o with
    | Some e => (inl e, log_call (call_open o wb) w)
    | None =>
        match write_fault host !! o with
        | Some (k, e) =>
            (inl e, set_files (<[resolve host o := take k d]> (files w))
                      (log_call (call_open o wb) w))
        | None =>
            (inr (), set_files (<[resolve host o := d]> (files w))
                       (log_call (call_open o wb) w))
        end
    end.
Proof.
  unfold write_output, with_open, open_, mbind, M_bind. simpl.
  destruct (open_wb_fault host !! o); [reflexivity|].
  unfold file_write, set_files. simpl. rewrite lookup_insert_eq. simpl.
  destruct (write_fault host !! o) as [[k e]|]; rewrite insert_insert_eq; reflexivity.
Qed.

Lemma remove_background_unfold i o w :
  remove_background host i o w =
    match read_input host i w with
    | (inl e, w1) => (inr 1, report e w1)
    | (inr input_data, w1) =>
        match remove host input_data with
        | inl e => (inr 1, report e (log_call (call_remove input_data) w1))
        | inr output_data =>
            match write_output host o output_data (log_call (call_remove input_data) w1) with
            | (inl e, w3) => (inr 1, report e w3)
            | (inr _, w3) => (inr 0, announce o w3)
            end
        end
    end.
Proof.
  unfold remove_background, try_except, mbind, M_bind, rembg_remove.
  destruct (read_input host i w) as [[e|c] w1]; [reflexivity|].
  destruct (remove host c) as [e|d]; [reflexivity|].
  destruct (write_output host o d _) as [[e|[]] w3]; reflexivity.
Qed.

Lemma run_two_arguments prog i o w :
  run host [prog; i; o] w =
    match remove_background host i o w with
    | (inr code, w') => (exited code, w')
    | (inl e, w') => (uncaught e, w')
    end.
Proof.
  unfold run, main. simpl. unfold mbind, M_bind, mret, M_ret. simpl.
  destruct (remove_background host i o w) as [[e|c] w']; reflexivity.
Qed.

Lemma run_wrong_count argv w :
  length argv ≠ 3%nat →
  run host argv w =
    (exited 1, mkWorld (files w) (stdout w ++ [usage]) (stderr w) (calls w)).
Proof.
  intros H. unfold run, main.
  destruct (Nat.eqb_spec (length argv) 3) as [E|E]; [contradiction|]. reflexivity.
Qed.
End Steps.

(** ** Running the script *)

(** A run with three entries in [argv], by the place where it stops. *)
Lemma run_cases host prog i o w :
  run host [prog; i; o] w =
    match read_input host i w with
    | (inl e, w1) => (exited 1, report e w1)
    | (inr input_data, w1) =>
        match remove host input_data with
        | inl e => (exited 1, report e (log_call (call_remove input_data) w1))
        | inr output_data =>
            match write_output host o output_data (log_call (call_remove input_data) w1) with
            | (inl e, w3) => (exited 1, report e w3)
            | (inr _, w3) => (exited 0, announce o w3)
            end
        end
    end.
Proof.
  rewrite run_two_arguments, remove_background_unfold.
  destruct (read_input host i w) as [[e|c] w1]; [reflexivity|].
  destruct (remove host c) as [e|d]; [reflexivity|].
  destruct (write_output host o d _) as [[e|u] w3]; reflexivity.
Qed.

Lemma argv_of_length_3 (argv : list string) :
  length argv = 3%nat → ∃ prog i o, argv = [prog; i; o].
Proof.
  destruct argv as [|prog [|i [|o [|x argv]]]]; simpl; try discriminate.
  intros _. by exists prog, i, o.
Qed.

Lemma write_output_files host o d w e w' p :
  write_output host o d w = (e, w') → p ≠ resolve host o →
  files w' !! p = files w !! p.
Proof.
  rewrite write_output_unfold. intros H Hp.
  destruct (open_wb_fault host !! o).
  - by inversion H.
  - destruct (write_fault host !! o) as [[k x]|]; inversion H; simpl;
      by rewrite lookup_insert_ne.
Qed.

Lemma write_output_streams host o d w e w' :
  write_output host o d w = (e, w') → stdout w' = stdout w ∧ stderr w' = stderr w.
Proof.
  rewrite write_output_unfold. intros H.
  destruct (open_wb_fault host !! o).
  - by inversion H.
  - destruct (write_fault host !! o) as [[k x]|]; by inversion H.
Qed.

(** C1, as amended: with two arguments, a readable input file, a library
    call that returns, and a writable output path, the script exits with
    code 0, prints the one line [SUCCESS: Background removed and saved to
    <output_path>] on standard output and nothing on standard error, and
    leaves at the output path a file that holds the bytes the library
    returned, which is non-empty when those bytes are. *)
Theorem success_on_good_input host prog i o w input_data output_data :
  readable host w i →
  writable host o →
  files w !! resolve host i = Some input_data →
  remove host input_data = inr output_data →
  ∃ w', run host [prog; i; o] w = (exited 0, w') ∧
        stdout w' = stdout w ++ [success_line o] ∧
        stderr w' = stderr w ∧
        files w' !! resolve host o = Some output_data ∧
        (output_data ≠ [] →
         ∃ content, files w' !! resolve host o = Some content ∧ content ≠ []).
Proof.
  intros [_ Hrd] [Hop Hwr] Hin Hrm.
  rewrite run_cases, read_input_unfold. simpl in *. rewrite Hin, Hrd, Hrm.
  rewrite write_output_unfold, Hop, Hwr.
  eexists. split; [reflexivity|]. simpl. rewrite lookup_insert_eq.
  repeat split. intros Hne. by exists output_data.
Qed.

Lemma success_on_good_input_witness :
  ∃ w', run Sample.host ["remove_bg.py"; "photo.png"; "out.png"] Sample.world
          = (exited 0, w') ∧
        stdout w' = ["SUCCESS: Background removed and saved to out.png"] ∧
        stderr w' = [] ∧
        files w' !! "out.png" = Some [Byte.x47; Byte.x4e; Byte.x50] ∧
        ([Byte.x47; Byte.x4e; Byte.x50] ≠ [] →
         ∃ content, files w' !! "out.png" = Some content ∧ content ≠ []).
Proof.
  apply (success_on_good_input Sample.host "remove_bg.py" "photo.png" "out.png"
           Sample.world Sample.photo).
  - split; [by eexists | reflexivity].
  - split; reflexivity.
  - reflexivity.
  - reflexivity.
Defined.

(** C1 as written fails: [notes.txt] is readable and [out.png] is writable,
    but the library rejects the data and the run ends with code 1; and
    [blank.png] gives a run that ends with code 0 and an empty file. *)
Lemma readable_and_writable_is_not_enough :
  readable Sample.host Sample.world "notes.txt" ∧
  writable Sample.host "out.png" ∧
  (run Sample.host ["remove_bg.py"; "notes.txt"; "out.png"] Sample.world).1
    = exited 1 ∧
  readable Sample.host Sample.world "blank.png" ∧
  (run Sample.host ["remove_bg.py"; "blank.png"; "out.png"] Sample.world).1
    = exited 0 ∧
  files (run Sample.host ["remove_bg.py"; "blank.png"; "out.png"] Sample.world).2
    !! "out.png" = Some [].
Proof.
  repeat split; try reflexivity; by eexists.
Qed.

(** What a run that exits with code 0 has done. *)
Lemma run_exit_0_inv host argv w w' :
  run host argv w = (exited 0, w') →
  ∃ prog i o input_data output_data,
    argv = [prog; i; o] ∧
    files w !! resolve host i = Some input_data ∧
    remove host input_data = inr output_data ∧
    files w' !! resolve host o = Some output_data ∧
    calls w' = calls w ++ [call_open i rb; call_remove input_data; call_open o wb].
Proof.
  intros Hrun.
  destruct (decide (length argv = 3%nat)) as [Hlen|Hlen];
    [|rewrite run_wrong_count in Hrun by done; discriminate].
  destruct (argv_of_length_3 argv Hlen) as (prog & i & o & ->).
  exists prog, i, o.
  rewrite run_cases, read_input_unfold in Hrun.
  destruct (files w !! resolve host i) as [c|] eqn:Hin; [|discriminate].
  destruct (open_rb_fault host !! i); [discriminate|].
  destruct (remove host c) as [e|d] eqn:Hrm; [discriminate|].
  rewrite write_output_unfold in Hrun.
  destruct (open_wb_fault host !! o); [discriminate|].
  destruct (write_fault host !! o) as [[k e]|]; [discriminate|].
  exists c, d. inversion Hrun; subst; clear Hrun. simpl.
  rewrite lookup_insert_eq, <- !app_assoc. done.
Qed.

(** C2: after a run that exits with code 0, the file at the output path
    holds exactly what the library returned for the full content the input
    file had, and the library was called once, on that content. *)
Theorem output_is_what_remove_returned host argv w w' :
  run host argv w = (exited 0, w') →
  ∃ prog i o input_data output_data,
    argv = [prog; i; o] ∧
    files w !! resolve host i = Some input_data ∧
    remove host input_data = inr output_data ∧
    files w' !! resolve host o = Some output_data ∧
    calls w' = calls w ++ [call_open i rb; call_remove input_data; call_open o wb].
Proof. apply run_exit_0_inv. Qed.

Lemma output_is_what_remove_returned_witness :
  ∃ prog i o input_data output_data,
    ["remove_bg.py"; "photo.png"; "out.png"] = [prog; i; o] ∧
    files Sample.world !! resolve Sample.host i = Some input_data ∧
    remove Sample.host input_data = inr output_data ∧
    files (run Sample.host ["remove_bg.py"; "photo.png"; "out.png"] Sample.world).2
      !! resolve Sample.host o = Some output_data ∧
    calls (run Sample.host ["remove_bg.py"; "photo.png"; "out.png"] Sample.world).2
      = calls Sample.world
        ++ [call_open i rb; call_remove input_data; call_open o wb].
Proof.
  apply (output_is_what_remove_returned Sample.host
           ["remove_bg.py"; "photo.png"; "out.png"] Sample.world).
  reflexivity.
Defined.

(** C3: when the number of arguments after the program name is not two,
    the script prints the usage line on standard output and exits with code
    1; it opens no file and does not call the library (the log of calls is
    the one it started with), and files and standard error stay as they
    were. *)
Theorem wrong_argument_count_prints_usage host prog args w :
  length args ≠ 2%nat →
  run host (prog :: args) w =
    (exited 1, mkWorld (files w) (stdout w ++ [usage]) (stderr w) (calls w)).
Proof.
  intros H. apply run_wrong_count. simpl. congruence.
Qed.

Lemma wrong_argument_count_prints_usage_witness :
  run Sample.host ["remove_bg.py"; "photo.png"] Sample.world =
    (exited 1,
     mkWorld (files Sample.world)
       ["Usage: python remove_bg.py <input_path> <output_path>"] [] []).
Proof.
  apply (wrong_argument_count_prints_usage Sample.host "remove_bg.py"
           ["photo.png"] Sample.world).
  simpl. lia.
Defined.

(** A run with two arguments in which one of the three steps raises. *)
Lemma run_of_failure host prog i o w e :
  fails_reading host i w e ∨
  fails_removing host i w e ∨
  fails_writing host i o w e →
  ∃ w', run host [prog; i; o] w = (exited 1, w') ∧
        stderr w' = stderr w ++ [error_line e] ∧
        stdout w' = stdout w.
Proof.
  unfold fails_reading, fails_removing, fails_writing, raises, rembg_remove.
  rewrite run_cases.
  intros [Hr | [(c & w1 & Hr & Hm) | (c & w1 & d & w2 & Hr & Hm & Hw)]].
  - destruct (read_input host i w) as [[x|c] w1] eqn:Hread; simpl in Hr;
      [|discriminate].
    injection Hr as ->. rewrite read_input_unfold in Hread.
    injection Hread as _ <-. by eexists.
  - rewrite Hr. simpl in Hm. rewrite Hm.
    rewrite read_input_unfold in Hr. injection Hr as _ <-. by eexists.
  - rewrite Hr. injection Hm as Hm <-. rewrite Hm.
    destruct (write_output host o d _) as [[x|u] w3] eqn:Hwrite; simpl in Hw;
      [|discriminate].
    injection Hw as ->.
    destruct (write_output_streams _ _ _ _ _ _ Hwrite) as [Hout Herr].
    rewrite read_input_unfold in Hr. injection Hr as _ <-.
    eexists. split; [reflexivity|]. simpl. by rewrite Hout, Herr.
Qed.

(** C4: an exception raised while the input file is read, inside the
    library call, or while the output file is written reaches the one
    handler of the script: the run exits with code 1, standard error gains
    the single line [ERROR: <str(e)>], and standard output gains nothing.
    The line depends on the exception through [str] alone. *)
Theorem exception_is_caught_and_reported host prog i o w e :
  fails_reading host i w e ∨
  fails_removing host i w e ∨
  fails_writing host i o w e →
  ∃ w', run host [prog; i; o] w = (exited 1, w') ∧
        stderr w' = stderr w ++ [error_line e] ∧
        stdout w' = stdout w.
Proof. apply run_of_failure. Qed.

Lemma exception_is_caught_and_reported_witness :
  ∃ w', run Sample.strict_host ["remove_bg.py"; "photo.png"; "locked.png"]
          Sample.world = (exited 1, w') ∧
        stderr w' = stderr Sample.world
          ++ [error_line (OSError 13 "Permission denied" (Some "locked.png"))] ∧
        stdout w' = stdout Sample.world.
Proof.
  apply (exception_is_caught_and_reported Sample.strict_host "remove_bg.py"
           "photo.png" "locked.png" Sample.world).
  right. right. unfold fails_writing, raises.
  eexists _, _, _, _. repeat split; reflexivity.
Defined.

(** A run with two arguments stops in exactly one of four ways. *)
Lemma run_stops host i o w :
  sequence_completes host i o w ∨
  ∃ e, fails_reading host i w e ∨
       fails_removing host i w e ∨
       fails_writing host i o w e.
Proof.
  unfold sequence_completes, fails_reading, fails_removing, fails_writing, raises.
  destruct (read_input host i w) as [[e|c] w1] eqn:Hr.
  { right. exists e. by left. }
  destruct (rembg_remove host c w1) as [[e|d] w2] eqn:Hm.
  { right. exists e. right. left. exists c, w1. by rewrite Hm. }
  destruct (write_output host o d w2) as [[e|[]] w3] eqn:Hw.
  { right. exists e. right. right. exists c, w1, d, w2. by rewrite Hw. }
  left. by exists c, w1, d, w2, w3.
Qed.

Lemma run_of_complete_sequence host prog i o w :
  sequence_completes host i o w →
  ∃ w', run host [prog; i; o] w = (exited 0, w').
Proof.
  intros (c & w1 & d & w2 & w3 & Hr & Hm & Hw).
  rewrite run_cases, Hr. unfold rembg_remove in Hm. injection Hm as Hm <-.
  rewrite Hm, Hw. by eexists.
Qed.

(** C5: whatever the arguments, the process ends with exit code 0 or 1 and
    no exception escapes; the code is 0 exactly when there are two
    arguments and reading, the library call and writing all return, and it
    is 1 exactly when the argument count is wrong or one of these three
    steps raises. *)
Theorem exit_code_is_zero_or_one host argv w :
  ((run host argv w).1 = exited 0 ∨ (run host argv w).1 = exited 1) ∧
  ((run host argv w).1 = exited 0 ↔
     ∃ prog i o, argv = [prog; i; o] ∧ sequence_completes host i o w) ∧
  ((run host argv w).1 = exited 1 ↔
     length argv ≠ 3%nat ∨
     ∃ prog i o e, argv = [prog; i; o] ∧
       (fails_reading host i w e ∨
        fails_removing host i w e ∨
        fails_writing host i o w e)).
Proof.
  destruct (decide (length argv = 3%nat)) as [Hlen|Hlen].
  - destruct (argv_of_length_3 argv Hlen) as (prog & i & o & ->).
    destruct (run_stops host i o w) as [Hok | [e He]].
    + destruct (run_of_complete_sequence host prog i o w Hok) as [w' Hrun].
      rewrite Hrun. simpl. split; [by left|]. split; split.
      * intros _. by exists prog, i, o.
      * done.
      * discriminate.
      * intros [Hbad | (p & i' & o' & e & Heq & He)]; [done|].
        injection Heq as <- <- <-.
        destruct (run_of_failure host prog i o w e He)
          as (w2 & Hrun2 & _).
        rewrite Hrun in Hrun2. discriminate.
    + destruct (run_of_failure host prog i o w e He)
        as (w' & Hrun & _).
      rewrite Hrun. simpl. split; [by right|]. split; split.
      * discriminate.
      * intros (p & i' & o' & Heq & Hok). injection Heq as <- <- <-.
        destruct (run_of_complete_sequence host prog i o w Hok) as [w2 Hrun2].
        rewrite Hrun in Hrun2. discriminate.
      * intros _. right. by exists prog, i, o, e.
      * done.
  - rewrite run_wrong_count by done. simpl. split; [by right|]. split; split.
    + discriminate.
    + intros (p & i & o & -> & _). by destruct Hlen.
    + intros _. by left.
    + done.
Qed.

(** C6, as amended: a run with two arguments that exits with code 1 adds
    exactly one line to standard error, [ERROR: <str(e)>] for the
    exception [e] that stopped it; a run with a wrong argument count exits
    with code 1 and adds nothing to standard error. *)
Theorem failure_lines_on_stderr host argv w w' :
  run host argv w = (exited 1, w') →
  (length argv ≠ 3%nat → stderr w' = stderr w) ∧
  (∀ prog i o, argv = [prog; i; o] →
     ∃ e, (fails_reading host i w e ∨
           fails_removing host i w e ∨
           fails_writing host i o w e) ∧
          stderr w' = stderr w ++ [error_line e]).
Proof.
  intros Hrun. split.
  - intros Hlen. rewrite run_wrong_count in Hrun by done. by injection Hrun as <-.
  - intros prog i o ->.
    destruct (run_stops host i o w) as [Hok | [e He]].
    + destruct (run_of_complete_sequence host prog i o w Hok) as [w2 Hrun2].
      rewrite Hrun in Hrun2. discriminate.
    + exists e. split; [done|].
      destruct (run_of_failure host prog i o w e He)
        as (w2 & Hrun2 & Herr & _).
      rewrite Hrun in Hrun2. by injection Hrun2 as ->.
Qed.

Lemma failure_lines_on_stderr_witness :
  (length ["remove_bg.py"; "notes.txt"; "out.png"] ≠ 3%nat →
   stderr (run Sample.host ["remove_bg.py"; "notes.txt"; "out.png"] Sample.world).2
     = stderr Sample.world) ∧
  (∀ prog i o, ["remove_bg.py"; "notes.txt"; "out.png"] = [prog; i; o] →
     ∃ e, (fails_reading Sample.host i Sample.world e ∨
           fails_removing Sample.host i Sample.world e ∨
           fails_writing Sample.host i o Sample.world e) ∧
          stderr (run Sample.host ["remove_bg.py"; "notes.txt"; "out.png"]
                    Sample.world).2
            = stderr Sample.world ++ [error_line e]).
Proof.
  apply (failure_lines_on_stderr Sample.host
           ["remove_bg.py"; "notes.txt"; "out.png"] Sample.world).
  reflexivity.
Defined.

(** C6 as written fails: with no argument the run exits with code 1 and
    standard error stays empty; the usage line goes to standard output. *)
Lemma usage_failure_prints_no_error_line :
  run Sample.host ["remove_bg.py"] Sample.world =
    (exited 1,
     mkWorld (files Sample.world)
       ["Usage: python remove_bg.py <input_path> <output_path>"] [] []) ∧
  stderr (run Sample.host ["remove_bg.py"] Sample.world).2 = [].
Proof. split; reflexivity. Qed.

(** ** Text *)

Lemma append_nil_r (s : string) : s +:+ EmptyString = s.
Proof.
  induction s as [|c s IH]; [reflexivity|].
  change (String c (s +:+ EmptyString) = String c s). by rewrite IH.
Qed.

Lemma append_assoc (s t u : string) : (s +:+ t) +:+ u = s +:+ (t +:+ u).
Proof.
  induction s as [|c s IH]; [reflexivity|].
  change (String c ((s +:+ t) +:+ u) = String c (s +:+ (t +:+ u))). by rewrite IH.
Qed.

Lemma plain_char_copied (c : ascii) :
  plain_char c = true → repr_char squote c = String c EmptyString.
Proof.
  destruct c as [[] [] [] [] [] [] [] []]; vm_compute; congruence.
Qed.

Lemma plain_char_not_squote (c : ascii) :
  plain_char c = true → Ascii.eqb squote c = false.
Proof.
  destruct c as [[] [] [] [] [] [] [] []]; vm_compute; congruence.
Qed.

Lemma plain_no_squote (s : string) : plain s = true → contains_char squote s = false.
Proof.
  induction s as [|c s IH]; [done|]. cbn [plain contains_char].
  intros [Hc Hs]%andb_prop. rewrite (plain_char_not_squote c Hc). auto.
Qed.

Lemma plain_body (s : string) : plain s = true → repr_body squote s = s.
Proof.
  induction s as [|c s IH]; [done|]. cbn [plain repr_body].
  intros [Hc Hs]%andb_prop. rewrite (plain_char_copied c Hc), IH by done.
  reflexivity.
Qed.

(** [repr] of a text of plain characters is the text between single quotes. *)
Lemma repr_plain (s : string) :
  plain s = true → repr s = String squote (s +:+ String squote EmptyString).
Proof.
  intros H. unfold repr, repr_quote. rewrite (plain_no_squote s H). simpl.
  by rewrite (plain_body s H).
Qed.

(** ** Files *)

(** C7, as amended: a run changes at most the one file the output path
    leads to: either no file changes, or the run has two arguments and the
    files afterwards are the files before with new content in that file.
    Every other file keeps its content, and so does the input file when
    the input path and the output path lead to different files; that the
    two paths are written differently is not enough. *)
Theorem only_the_output_path_changes host argv w :
  (files (run host argv w).2 = files w ∨
   ∃ prog i o content,
     argv = [prog; i; o] ∧
     files (run host argv w).2 = <[resolve host o := content]> (files w)) ∧
  (∀ prog i o, argv = [prog; i; o] →
     (∀ file, file ≠ resolve host o →
        files (run host argv w).2 !! file = files w !! file) ∧
     (resolve host i ≠ resolve host o →
        files (run host argv w).2 !! resolve host i = files w !! resolve host i)).
Proof.
  assert (files (run host argv w).2 = files w ∨
          ∃ prog i o content,
            argv = [prog; i; o] ∧
            files (run host argv w).2 = <[resolve host o := content]> (files w))
    as Hframe.
  { destruct (decide (length argv = 3%nat)) as [Hlen|Hlen];
      [|left; by rewrite run_wrong_count].
    destruct (argv_of_length_3 argv Hlen) as (prog & i & o & ->).
    rewrite run_cases, read_input_unfold.
    destruct (files w !! resolve host i) as [c|]; [|by left].
    destruct (open_rb_fault host !! i); [by left|].
    destruct (remove host c) as [e|d]; [by left|].
    rewrite write_output_unfold.
    destruct (open_wb_fault host !! o); [by left|].
    destruct (write_fault host !! o) as [[k e]|]; right.
    - by exists prog, i, o, (take k d).
    - by exists prog, i, o, d. }
  split; [done|].
  intros prog i o ->.
  assert (∀ file, file ≠ resolve host o →
            files (run host [prog; i; o] w).2 !! file = files w !! file) as Hother.
  { intros p Hp. destruct Hframe as [-> | (p' & i' & o' & c & Heq & ->)]; [done|].
    injection Heq as <- <- <-. by rewrite lookup_insert_ne. }
  split; [done|]. intros Hio. by apply Hother.
Qed.

(** C7 as written fails: with the input path given as output path too, the
    run exits with code 0 and the input file no longer holds what it
    held.  [input_overwritten_through_other_name] below shows the same for
    two paths that are written differently and lead to one file. *)
Lemma input_file_overwritten :
  (run Sample.host ["remove_bg.py"; "photo.png"; "photo.png"] Sample.world).1
    = exited 0 ∧
  files Sample.world !! "photo.png"
    = Some [Byte.x89; Byte.x50; Byte.x4e; Byte.x47] ∧
  files (run Sample.host ["remove_bg.py"; "photo.png"; "photo.png"] Sample.world).2
    !! "photo.png" = Some [Byte.x47; Byte.x4e; Byte.x50].
Proof. repeat split; reflexivity. Qed.

(** Two spellings of one file: the run reads [photo.png], then opens the
    same file for writing under the name [./photo.png], and the input is
    replaced; no second file appears. *)
Example input_overwritten_through_other_name :
  resolve Sample.host "./photo.png" = resolve Sample.host "photo.png" ∧
  run Sample.host ["remove_bg.py"; "photo.png"; "./photo.png"] Sample.world =
    (exited 0,
     mkWorld (<["photo.png" := [Byte.x47; Byte.x4e; Byte.x50]]> (files Sample.world))
       ["SUCCESS: Background removed and saved to ./photo.png"] []
       [call_open "photo.png" rb; call_remove Sample.photo;
        call_open "./photo.png" wb]) ∧
  dom (files (run Sample.host ["remove_bg.py"; "photo.png"; "./photo.png"]
                Sample.world).2)
    = dom (files Sample.world).
Proof. repeat split; reflexivity. Qed.

(** C8: when the input path names no file, the run exits with code 1 and
    standard error gains the one line [ERROR: [Errno 2] No such file or
    directory: <repr of the path>]; the line holds the path as [repr]
    shows it, and the path itself, between single quotes, when the path is
    made of plain characters.  No file changes. *)
Theorem missing_input_file_is_reported host prog i o w :
  files w !! resolve host i = None →
  ∃ w', run host [prog; i; o] w = (exited 1, w') ∧
        stderr w' = stderr w
          ++ ["ERROR: [Errno 2] No such file or directory: " +:+ repr i] ∧
        stdout w' = stdout w ∧
        files w' = files w ∧
        (∀ line, last (stderr w') = Some line →
           mentions line (repr i) ∧ (plain i = true → mentions line i)).
Proof.
  intros Hin. rewrite run_cases, read_input_unfold, Hin.
  eexists. split; [reflexivity|]. simpl. do 3 (split; [reflexivity|]).
  intros line Hlast. rewrite last_snoc in Hlast. injection Hlast as <-. split.
  - exists "ERROR: [Errno 2] No such file or directory: ", EmptyString.
    by rewrite append_nil_r.
  - intros Hplain.
    exists ("ERROR: [Errno 2] No such file or directory: " +:+ String squote EmptyString),
      (String squote EmptyString).
    unfold error_line. simpl. rewrite (repr_plain i Hplain), append_assoc.
    reflexivity.
Qed.

Lemma missing_input_file_is_reported_witness :
  ∃ w', run Sample.host ["remove_bg.py"; "gone.png"; "out.png"] Sample.world
          = (exited 1, w') ∧
        stderr w' = stderr Sample.world
          ++ ["ERROR: [Errno 2] No such file or directory: " +:+ repr "gone.png"] ∧
        stdout w' = stdout Sample.world ∧
        files w' = files Sample.world ∧
        (∀ line, last (stderr w') = Some line →
           mentions line (repr "gone.png") ∧
           (plain "gone.png" = true → mentions line "gone.png")).
Proof.
  apply (missing_input_file_is_reported Sample.host "remove_bg.py" "gone.png"
           "out.png" Sample.world).
  reflexivity.
Defined.

Example missing_input_file_line :
  stderr (run Sample.host ["remove_bg.py"; "gone.png"; "out.png"] Sample.world).2
  = ["ERROR: [Errno 2] No such file or directory: 'gone.png'"].
Proof. reflexivity. Qed.

(** C9: when the run stops while the input file is read or inside the
    library call, it exits with code 1 without having opened the output
    path: no file is created or changed, so the output path holds what it
    held, or nothing if it held nothing. *)
Theorem early_failure_leaves_output_alone host prog i o w e :
  fails_reading host i w e ∨ fails_removing host i w e →
  (run host [prog; i; o] w).1 = exited 1 ∧
  files (run host [prog; i; o] w).2 = files w ∧
  files (run host [prog; i; o] w).2 !! resolve host o = files w !! resolve host o ∧
  ∃ made, calls (run host [prog; i; o] w).2 = calls w ++ made ∧
          call_open o wb ∉ made.
Proof.
  unfold fails_reading, fails_removing, raises, rembg_remove.
  rewrite run_cases, read_input_unfold. simpl.
  intros [Hr | (c & w1 & Hr & Hm)].
  - rewrite Hr. simpl. do 3 (split; [reflexivity|]).
    exists [call_open i rb]. split; [reflexivity|].
    intros Hin. apply list_elem_of_singleton in Hin. discriminate.
  - injection Hr as Hr <-. rewrite Hr, Hm. simpl. do 3 (split; [reflexivity|]).
    exists [call_open i rb; call_remove c]. split; [by rewrite <- app_assoc|].
    intros Hin. apply elem_of_cons in Hin as [Hin|Hin]; [discriminate|].
    apply list_elem_of_singleton in Hin. discriminate.
Qed.

Lemma early_failure_leaves_output_alone_witness :
  (run Sample.host ["remove_bg.py"; "notes.txt"; "photo.png"] Sample.world).1
    = exited 1 ∧
  files (run Sample.host ["remove_bg.py"; "notes.txt"; "photo.png"] Sample.world).2
    = files Sample.world ∧
  files (run Sample.host ["remove_bg.py"; "notes.txt"; "photo.png"] Sample.world).2
    !! "photo.png" = files Sample.world !! "photo.png" ∧
  ∃ made,
    calls (run Sample.host ["remove_bg.py"; "notes.txt"; "photo.png"] Sample.world).2
      = calls Sample.world ++ made ∧
    call_open "photo.png" wb ∉ made.
Proof.
  apply (early_failure_leaves_output_alone Sample.host "remove_bg.py"
           "notes.txt" "photo.png" Sample.world
           (OtherError "UnidentifiedImageError" "cannot identify image file")).
  right. unfold fails_removing, raises. eexists _, _. split; reflexivity.
Defined.

(** C10: with one and the same library function, two runs that exit with
    code 0 and whose input files hold the same bytes leave the same bytes
    at their output paths, whatever the paths, the other files and the
    hosts' faults are. *)
Theorem equal_inputs_give_equal_outputs
    host1 prog1 i1 o1 w1 w1' host2 prog2 i2 o2 w2 w2' :
  remove host1 = remove host2 →
  files w1 !! resolve host1 i1 = files w2 !! resolve host2 i2 →
  run host1 [prog1; i1; o1] w1 = (exited 0, w1') →
  run host2 [prog2; i2; o2] w2 = (exited 0, w2') →
  ∃ output_data,
    files w1' !! resolve host1 o1 = Some output_data ∧
    files w2' !! resolve host2 o2 = Some output_data.
Proof.
  intros Hsame Hin Hrun1 Hrun2.
  apply run_exit_0_inv in Hrun1
    as (p1 & i1' & o1' & c1 & d1 & Heq1 & Hc1 & Hd1 & Hout1 & _).
  apply run_exit_0_inv in Hrun2
    as (p2 & i2' & o2' & c2 & d2 & Heq2 & Hc2 & Hd2 & Hout2 & _).
  injection Heq1 as <- <- <-. injection Heq2 as <- <- <-.
  rewrite Hc1, Hc2 in Hin. injection Hin as <-.
  rewrite Hsame, Hd2 in Hd1. injection Hd1 as <-.
  by exists d2.
Qed.

Lemma equal_inputs_give_equal_outputs_witness :
  ∃ output_data,
    files (run Sample.host ["remove_bg.py"; "photo.png"; "out.png"] Sample.world).2
      !! "out.png" = Some output_data ∧
    files (run Sample.strict_host ["remove_bg.py"; "copy.png"; "cut.png"]
             (mkWorld {[ "copy.png" := Sample.photo ]} [] [] [])).2
      !! "cut.png" = Some output_data.
Proof.
  apply (equal_inputs_give_equal_outputs
           Sample.host "remove_bg.py" "photo.png" "out.png" Sample.world _
           Sample.strict_host "remove_bg.py" "copy.png" "cut.png"
           (mkWorld {[ "copy.png" := Sample.photo ]} [] [] []) _);
    reflexivity.
Defined.

(** ** Runs of the sample host *)

Example run_success :
  run Sample.host ["remove_bg.py"; "photo.png"; "out.png"] Sample.world =
    (exited 0,
     mkWorld (<["out.png" := [Byte.x47; Byte.x4e; Byte.x50]]> (files Sample.world))
       ["SUCCESS: Background removed and saved to out.png"] []
       [call_open "photo.png" rb; call_remove Sample.photo; call_open "out.png" wb]).
Proof. reflexivity. Qed.

Example run_locked_output :
  run Sample.strict_host ["remove_bg.py"; "photo.png"; "locked.png"] Sample.world =
    (exited 1,
     mkWorld (files Sample.world) []
       ["ERROR: [Errno 13] Permission denied: 'locked.png'"]
       [call_open "photo.png" rb; call_remove Sample.photo;
        call_open "locked.png" wb]).
Proof. reflexivity. Qed.

Example run_full_disk :
  run Sample.strict_host ["remove_bg.py"; "photo.png"; "full.png"] Sample.world =
    (exited 1,
     mkWorld (<["full.png" := [Byte.x47; Byte.x4e]]> (files Sample.world)) []
       ["ERROR: [Errno 28] No space left on device"]
       [call_open "photo.png" rb; call_remove Sample.photo;
        call_open "full.png" wb]).
Proof. reflexivity. Qed.

Example repr_with_quote_and_backslash :
  repr (String squote (String backslash "n")) =
    String dquote
      (String squote (String backslash (String backslash ("n" +:+ String dquote EmptyString)))).
Proof. reflexivity. Qed.

Example repr_of_control_character :
  repr (String (ascii_of_nat 7) "a") = String squote (String backslash "x07a'").
Proof. reflexivity. Qed.

(** * Further properties of the script *)

(** X1: when the input was read and the library returned, but the host
    refuses to open the output path, the run exits with code 1, reports the
    host's exception on standard error, and leaves every file as it was;
    the library has been called all the same. *)
Theorem refused_output_changes_no_file host prog i o w input_data output_data e :
  readable host w i →
  files w !! resolve host i = Some input_data →
  remove host input_data = inr output_data →
  open_wb_fault host !! o = Some e →
  run host [prog; i; o] w =
    (exited 1,
     mkWorld (files w) (stdout w) (stderr w ++ [error_line e])
       (calls w ++ [call_open i rb; call_remove input_data; call_open o wb])).
Proof.
  intros [_ Hrd] Hin Hrm Hop.
  rewrite run_cases, read_input_unfold, Hin, Hrd, Hrm, write_output_unfold, Hop.
  unfold report, log_call. simpl. by rewrite <- !app_assoc.
Qed.

Lemma refused_output_changes_no_file_witness :
  run Sample.strict_host ["remove_bg.py"; "photo.png"; "locked.png"] Sample.world =
    (exited 1,
     mkWorld (files Sample.world) (stdout Sample.world)
       (stderr Sample.world
          ++ [error_line (OSError 13 "Permission denied" (Some "locked.png"))])
       (calls Sample.world
          ++ [call_open "photo.png" rb; call_remove Sample.photo;
              call_open "locked.png" wb])).
Proof.
  apply (refused_output_changes_no_file Sample.strict_host "remove_bg.py"
           "photo.png" "locked.png" Sample.world Sample.photo
           [Byte.x47; Byte.x4e; Byte.x50]).
  - split; [by eexists | reflexivity].
  - reflexivity.
  - reflexivity.
  - reflexivity.
Defined.

(** X2: once the output path has been opened, what the file it leads to
    held before is gone whether or not the write goes through: the files
    afterwards are the files before with, in that file, a leading part of
    the bytes the library returned, and all of them when the run exits
    with code 0. *)
Theorem opened_output_loses_old_content host prog i o w input_data output_data :
  readable host w i →
  files w !! resolve host i = Some input_data →
  remove host input_data = inr output_data →
  open_wb_fault host !! o = None →
  ∃ written,
    written `prefix_of` output_data ∧
    files (run host [prog; i; o] w).2 = <[resolve host o := written]> (files w) ∧
    ((run host [prog; i; o] w).1 = exited 0 → written = output_data) ∧
    ((run host [prog; i; o] w).1 = exited 1 →
       ∃ k e, write_fault host !! o = Some (k, e) ∧ written = take k output_data).
Proof.
  intros [_ Hrd] Hin Hrm Hop.
  rewrite run_cases, read_input_unfold, Hin, Hrd, Hrm, write_output_unfold, Hop.
  destruct (write_fault host !! o) as [[k e]|]; simpl.
  - exists (take k output_data). split; [apply prefix_take|].
    split; [done|]. split; [discriminate|]. intros _. by exists k, e.
  - exists output_data. split; [done|]. split; [done|]. split; [done|].
    discriminate.
Qed.

Lemma opened_output_loses_old_content_witness :
  ∃ written,
    written `prefix_of` [Byte.x47; Byte.x4e; Byte.x50] ∧
    files (run Sample.strict_host ["remove_bg.py"; "photo.png"; "full.png"]
             Sample.world).2
      = <["full.png" := written]> (files Sample.world) ∧
    ((run Sample.strict_host ["remove_bg.py"; "photo.png"; "full.png"]
        Sample.world).1 = exited 0 →
     written = [Byte.x47; Byte.x4e; Byte.x50]) ∧
    ((run Sample.strict_host ["remove_bg.py"; "photo.png"; "full.png"]
        Sample.world).1 = exited 1 →
     ∃ k e, write_fault Sample.strict_host !! "full.png" = Some (k, e) ∧
            written = take k [Byte.x47; Byte.x4e; Byte.x50]).
Proof.
  apply (opened_output_loses_old_content Sample.strict_host "remove_bg.py"
           "photo.png" "full.png" Sample.world Sample.photo).
  - split; [by eexists | reflexivity].
  - reflexivity.
  - reflexivity.
  - reflexivity.
Defined.

(** X3: the calls a run makes are a leading part of: open the input path
    for reading, call the library on the content read, open the output path
    for writing.  So no other path is opened, the library is called at most
    once and only on the whole input, and the output path is opened only
    after the library has returned.  With a wrong argument count no call is
    made at all. *)
Theorem calls_follow_the_script host argv w :
  ∃ made,
    calls (run host argv w).2 = calls w ++ made ∧
    ((length argv ≠ 3%nat ∧ made = []) ∨
     ∃ prog i o,
       argv = [prog; i; o] ∧
       (made = [call_open i rb] ∨
        ∃ input_data,
          files w !! resolve host i = Some input_data ∧
          (made = [call_open i rb; call_remove input_data] ∨
           ∃ output_data,
             remove host input_data = inr output_data ∧
             made = [call_open i rb; call_remove input_data; call_open o wb]))).
Proof.
  destruct (decide (length argv = 3%nat)) as [Hlen|Hlen].
  - destruct (argv_of_length_3 argv Hlen) as (prog & i & o & ->).
    rewrite run_cases, read_input_unfold.
    destruct (files w !! resolve host i) as [c|] eqn:Hin.
    2:{ exists [call_open i rb]. split; [done|]. right. exists prog, i, o. auto. }
    destruct (open_rb_fault host !! i).
    { exists [call_open i rb]. split; [done|]. right. exists prog, i, o. auto. }
    destruct (remove host c) as [e|d] eqn:Hrm.
    { exists [call_open i rb; call_remove c]. split; [simpl; by rewrite <- app_assoc|].
      right. exists prog, i, o. split; [done|]. right. exists c. auto. }
    exists [call_open i rb; call_remove c; call_open o wb]. split.
    + rewrite write_output_unfold.
      destruct (open_wb_fault host !! o); [|destruct (write_fault host !! o) as [[k e]|]];
        simpl; by rewrite <- !app_assoc.
    + right. exists prog, i, o. split; [done|]. right. exists c. split; [done|].
      right. by exists d.
  - exists []. rewrite run_wrong_count by done. simpl. split; [by rewrite app_nil_r|].
    by left.
Qed.

(** X4: every run prints exactly one line, on one stream only.  With exit
    code 0 it is the success line on standard output; with exit code 1 it
    is the usage line on standard output when the argument count is wrong,
    and an [ERROR: ...] line on standard error otherwise. *)
Theorem one_line_per_run host argv w :
  ((run host argv w).1 = exited 0 ∧
   (∃ prog i o, argv = [prog; i; o] ∧
      stdout (run host argv w).2 = stdout w ++ [success_line o]) ∧
   stderr (run host argv w).2 = stderr w) ∨
  ((run host argv w).1 = exited 1 ∧
   length argv ≠ 3%nat ∧
   stdout (run host argv w).2 = stdout w ++ [usage] ∧
   stderr (run host argv w).2 = stderr w) ∨
  ((run host argv w).1 = exited 1 ∧
   length argv = 3%nat ∧
   stdout (run host argv w).2 = stdout w ∧
   ∃ e, stderr (run host argv w).2 = stderr w ++ [error_line e]).
Proof.
  destruct (decide (length argv = 3%nat)) as [Hlen|Hlen].
  - destruct (argv_of_length_3 argv Hlen) as (prog & i & o & ->).
    destruct (run_stops host i o w) as [Hok | [e He]].
    + left. destruct Hok as (c & w1 & d & w2 & w3 & Hr & Hm & Hw).
      rewrite run_cases, Hr. unfold rembg_remove in Hm. injection Hm as Hm <-.
      rewrite Hm, Hw. simpl.
      destruct (write_output_streams _ _ _ _ _ _ Hw) as [Hout Herr].
      rewrite read_input_unfold in Hr. injection Hr as _ <-.
      split; [done|]. split; [|done]. exists prog, i, o. by rewrite Hout.
    + right. right.
      destruct (run_of_failure host prog i o w e He) as (w' & Hrun & Herr & Hout).
      rewrite Hrun. simpl. repeat split; [done..|]. by exists e.
  - right. left. rewrite run_wrong_count by done. done.
Qed.

(** X5: running the script a second time with the same two arguments, the
    input path and the output path leading to different files, ends with
    the same exit code as the first run and leaves the files as the first
    run left them. *)
Theorem second_run_changes_no_file host prog i o w :
  resolve host i ≠ resolve host o →
  (run host [prog; i; o] (run host [prog; i; o] w).2).1
    = (run host [prog; i; o] w).1 ∧
  files (run host [prog; i; o] (run host [prog; i; o] w).2).2
    = files (run host [prog; i; o] w).2.
Proof.
  intros Hio.
  rewrite (run_cases host prog i o w), read_input_unfold.
  destruct (files w !! resolve host i) as [c|] eqn:Hin.
  2:{ simpl. by rewrite run_cases, read_input_unfold; simpl; rewrite Hin. }
  destruct (open_rb_fault host !! i) as [e|] eqn:Hrd.
  { simpl. by rewrite run_cases, read_input_unfold; simpl; rewrite Hin, Hrd. }
  destruct (remove host c) as [e|d] eqn:Hrm.
  { simpl. by rewrite run_cases, read_input_unfold; simpl; rewrite Hin, Hrd, Hrm. }
  rewrite write_output_unfold.
  destruct (open_wb_fault host !! o) as [e|] eqn:Hop.
  { simpl. rewrite run_cases, read_input_unfold; simpl.
    by rewrite Hin, Hrd, Hrm, write_output_unfold, Hop. }
  destruct (write_fault host !! o) as [[k e]|] eqn:Hwr; simpl;
    rewrite run_cases, read_input_unfold; simpl;
    rewrite lookup_insert_ne, Hin, Hrd, Hrm, write_output_unfold, Hop, Hwr by done;
    simpl; by rewrite insert_insert_eq.
Qed.

Lemma second_run_changes_no_file_witness :
  (run Sample.host ["remove_bg.py"; "photo.png"; "out.png"]
     (run Sample.host ["remove_bg.py"; "photo.png"; "out.png"] Sample.world).2).1
    = (run Sample.host ["remove_bg.py"; "photo.png"; "out.png"] Sample.world).1 ∧
  files (run Sample.host ["remove_bg.py"; "photo.png"; "out.png"]
           (run Sample.host ["remove_bg.py"; "photo.png"; "out.png"] Sample.world).2).2
    = files (run Sample.host ["remove_bg.py"; "photo.png"; "out.png"] Sample.world).2.
Proof.
  apply (second_run_changes_no_file Sample.host "remove_bg.py" "photo.png"
           "out.png" Sample.world).
  discriminate.
Defined.

(** When the two paths lead to one file, the second run works on what the
    first one wrote: here, with the same path twice and with two spellings
    of it, the first run exits with code 0 and the second with code 1. *)
Example second_run_in_place :
  (run Sample.host ["remove_bg.py"; "photo.png"; "photo.png"] Sample.world).1
    = exited 0 ∧
  (run Sample.host ["remove_bg.py"; "photo.png"; "photo.png"]
     (run Sample.host ["remove_bg.py"; "photo.png"; "photo.png"] Sample.world).2).1
    = exited 1 ∧
  (run Sample.host ["remove_bg.py"; "photo.png"; "./photo.png"] Sample.world).1
    = exited 0 ∧
  (run Sample.host ["remove_bg.py"; "photo.png"; "./photo.png"]
     (run Sample.host ["remove_bg.py"; "photo.png"; "./photo.png"] Sample.world).2).1
    = exited 1.
Proof. repeat split; reflexivity. Qed.

(** X6: called with any two paths, [remove_background] does not raise: it
    returns 0 after printing the success line on standard output, or 1
    after printing an [ERROR: ...] line on standard error, and in both
    cases prints nothing else. *)
Theorem remove_background_never_raises host i o w :
  ∃ code w',
    remove_background host i o w = (inr code, w') ∧
    ((code = 0 ∧ stdout w' = stdout w ++ [success_line o] ∧ stderr w' = stderr w) ∨
     (code = 1 ∧ stdout w' = stdout w ∧
      ∃ e, stderr w' = stderr w ++ [error_line e])).
Proof.
  rewrite remove_background_unfold, read_input_unfold.
  destruct (files w !! resolve host i) as [c|].
  2:{ eexists _, _. split; [reflexivity|]. right. repeat split. by eexists. }
  destruct (open_rb_fault host !! i) as [e|].
  { eexists _, _. split; [reflexivity|]. right. repeat split. by eexists. }
  destruct (remove host c) as [e|d].
  { eexists _, _. split; [reflexivity|]. right. repeat split. by eexists. }
  destruct (write_output host o d _) as [[e|u] w3] eqn:Hw;
    destruct (write_output_streams _ _ _ _ _ _ Hw) as [Hout Herr];
    simpl in Hout, Herr; eexists _, _; (split; [reflexivity|]); simpl;
    rewrite Hout, Herr.
  - right. repeat split. by eexists.
  - by left.
Qed.

(** X7: the script never reads the file the output path leads to, unless
    the input path leads to it too.  When the two paths lead to different
    files, putting any content into the output file beforehand changes
    neither the exit code, nor the lines printed, nor the calls made, nor,
    when the run exits with code 0, the files left behind. *)
Theorem old_output_content_is_not_read host prog i o w junk :
  resolve host i ≠ resolve host o →
  (run host [prog; i; o] (set_files (<[resolve host o := junk]> (files w)) w)).1
    = (run host [prog; i; o] w).1 ∧
  stdout (run host [prog; i; o] (set_files (<[resolve host o := junk]> (files w)) w)).2
    = stdout (run host [prog; i; o] w).2 ∧
  stderr (run host [prog; i; o] (set_files (<[resolve host o := junk]> (files w)) w)).2
    = stderr (run host [prog; i; o] w).2 ∧
  calls (run host [prog; i; o] (set_files (<[resolve host o := junk]> (files w)) w)).2
    = calls (run host [prog; i; o] w).2 ∧
  ((run host [prog; i; o] w).1 = exited 0 →
   files (run host [prog; i; o] (set_files (<[resolve host o := junk]> (files w)) w)).2
     = files (run host [prog; i; o] w).2).
Proof.
  intros Hio.
  rewrite !run_cases, !read_input_unfold. simpl.
  rewrite lookup_insert_ne by done.
  destruct (files w !! resolve host i) as [c|]; [|by repeat split].
  destruct (open_rb_fault host !! i); [by repeat split|].
  destruct (remove host c) as [e|d]; [by repeat split|].
  rewrite !write_output_unfold.
  destruct (open_wb_fault host !! o); [by repeat split|].
  destruct (write_fault host !! o) as [[k e]|]; simpl.
  - by repeat split.
  - repeat split. intros _. by rewrite insert_insert_eq.
Qed.

Lemma old_output_content_is_not_read_witness :
  (run Sample.host ["remove_bg.py"; "photo.png"; "out.png"]
     (set_files (<["out.png" := [Byte.x00]]> (files Sample.world)) Sample.world)).1
    = (run Sample.host ["remove_bg.py"; "photo.png"; "out.png"] Sample.world).1 ∧
  stdout (run Sample.host ["remove_bg.py"; "photo.png"; "out.png"]
     (set_files (<["out.png" := [Byte.x00]]> (files Sample.world)) Sample.world)).2
    = stdout (run Sample.host ["remove_bg.py"; "photo.png"; "out.png"] Sample.world).2 ∧
  stderr (run Sample.host ["remove_bg.py"; "photo.png"; "out.png"]
     (set_files (<["out.png" := [Byte.x00]]> (files Sample.world)) Sample.world)).2
    = stderr (run Sample.host ["remove_bg.py"; "photo.png"; "out.png"] Sample.world).2 ∧
  calls (run Sample.host ["remove_bg.py"; "photo.png"; "out.png"]
     (set_files (<["out.png" := [Byte.x00]]> (files Sample.world)) Sample.world)).2
    = calls (run Sample.host ["remove_bg.py"; "photo.png"; "out.png"] Sample.world).2 ∧
  ((run Sample.host ["remove_bg.py"; "photo.png"; "out.png"] Sample.world).1
     = exited 0 →
   files (run Sample.host ["remove_bg.py"; "photo.png"; "out.png"]
     (set_files (<["out.png" := [Byte.x00]]> (files Sample.world)) Sample.world)).2
     = files (run Sample.host ["remove_bg.py"; "photo.png"; "out.png"] Sample.world).2).
Proof.
  apply (old_output_content_is_not_read Sample.host "remove_bg.py" "photo.png"
           "out.png" Sample.world [Byte.x00]).
  discriminate.
Defined.
